(** * fintools: compound interest, rate conversion, present and future value

    A shallow embedding of [src/fintools/compound_interest.py] and the
    properties its specification states about it.

    The seven functions of the module are closed-form formulas behind a
    block of input validation.  Their text is embedded once, over an
    interface [arith] of the Python operators they use ([+], [-], [*],
    [/], [**], [math.exp], [<], [<=]), and read under two arithmetics:

    - [binary64]: Python's [float], that is IEEE-754 double precision with
      CPython's treatment of [**], [/] and [math.exp] (which raise
      [OverflowError] and [ZeroDivisionError]);
    - [reals]: the real numbers, the arithmetic the formulas of the
      docstrings are written in.

    Statements about what the code returns, raises, or returns bit for bit
    are made under [binary64]; the algebraic laws that hold only up to
    rounding are stated under [reals]. *)

From Stdlib Require Import ZArith Floats String Bool List Reals Lra Lia Psatz.
Import ListNotations.

Set Warnings "-inexact-float".

(** ** Outcomes of a Python call *)

(** The exceptions the module and the operators under it can raise.
    [ComplexResult] stands for the one case in which [**] leaves the
    floats (a negative base under a fractional exponent, answered by
    Python with a complex number). *)
Inductive exn : Type :=
| ValueError (msg : string)
| OverflowError
| ZeroDivisionError
| ComplexResult.

Inductive result (A : Type) : Type :=
| Ok (a : A)
| Raise (e : exn).

Arguments Ok {A} a.
Arguments Raise {A} e.

Definition bind {A B : Type} (r : result A) (k : A -> result B) : result B :=
  match r with
  | Ok a => k a
  | Raise e => Raise e
  end.

Notation "x <- r ;; k" := (bind r (fun x => k))
  (at level 61, r at next level, right associativity).

(** [is_value_error r]: the call failed input validation. *)
Definition is_value_error {A : Type} (r : result A) : bool :=
  match r with
  | Raise (ValueError _) => true
  | _ => false
  end.

(** ** The operators of the source *)

Record arith : Type := Arith {
  num : Type;
  lit : Z -> num;                         (* the literals 0, 1, 12 *)
  add : num -> num -> num;
  sub : num -> num -> num;
  mul : num -> num -> num;
  truediv : num -> num -> result num;     (* x / y *)
  power : num -> num -> result num;       (* x ** y *)
  math_exp : num -> result num;           (* math.exp(x) *)
  ltb : num -> num -> bool;               (* x < y *)
  leb : num -> num -> bool                (* x <= y *)
}.

(** ** The module, over any arithmetic

    The arguments are numbers of the arithmetic.  The source annotates
    [compounding_frequency] as [int] and [years] as [int] or [float]: an
    [int] argument enters the formulas at its float value, which is the
    integer itself up to [2^53]. *)

Section Fintools.

Variable A : arith.

Local Notation "x + y" := (add A x y).
Local Notation "x - y" := (sub A x y).
Local Notation "x * y" := (mul A x y).
Local Notation "x / y" := (truediv A x y).
Local Notation "x ** y" := (power A x y) (at level 30, right associativity).
Local Notation "x <? y" := (ltb A x y) (at level 70).
Local Notation "x <=? y" := (leb A x y) (at level 70).
Local Notation "0" := (lit A 0%Z).
Local Notation "1" := (lit A 1%Z).
Local Notation "12" := (lit A 12%Z).

Definition annual_to_monthly_rate (annual_rate : num A) : result (num A) :=
  if annual_rate <? 0 then
    Raise (ValueError "年利は0以上である必要があります")
  else
    e <- 1 / 12 ;;
    p <- (1 + annual_rate) ** e ;;
    Ok (p - 1).

Definition monthly_to_annual_rate (monthly_rate : num A) : result (num A) :=
  if monthly_rate <? 0 then
    Raise (ValueError "月利は0以上である必要があります")
  else
    p <- (1 + monthly_rate) ** 12 ;;
    Ok (p - 1).

Definition compound_interest
    (principal annual_rate years compounding_frequency : num A)
    : result (num A) :=
  if principal <? 0 then
    Raise (ValueError "元本は0以上である必要があります")
  else if annual_rate <? 0 then
    Raise (ValueError "年利は0以上である必要があります")
  else if years <? 0 then
    Raise (ValueError "期間は0以上である必要があります")
  else if compounding_frequency <=? 0 then
    Raise (ValueError "複利回数は1以上である必要があります")
  else
    rate_per_period <- annual_rate / compounding_frequency ;;
    let total_periods := compounding_frequency * years in
    p <- (1 + rate_per_period) ** total_periods ;;
    Ok (principal * p).

Definition future_value
    (principal annual_rate years compounding_frequency : num A)
    : result (num A) :=
  compound_interest principal annual_rate years compounding_frequency.

Definition present_value
    (future_value_amount annual_rate years compounding_frequency : num A)
    : result (num A) :=
  if future_value_amount <? 0 then
    Raise (ValueError "将来価値は0以上である必要があります")
  else if annual_rate <? 0 then
    Raise (ValueError "年利は0以上である必要があります")
  else if years <? 0 then
    Raise (ValueError "期間は0以上である必要があります")
  else if compounding_frequency <=? 0 then
    Raise (ValueError "複利回数は1以上である必要があります")
  else
    rate_per_period <- annual_rate / compounding_frequency ;;
    let total_periods := compounding_frequency * years in
    p <- (1 + rate_per_period) ** total_periods ;;
    future_value_amount / p.

Definition effective_annual_rate
    (nominal_annual_rate compounding_frequency : num A) : result (num A) :=
  if nominal_annual_rate <? 0 then
    Raise (ValueError "名目年利は0以上である必要があります")
  else if compounding_frequency <=? 0 then
    Raise (ValueError "複利回数は1以上である必要があります")
  else
    q <- nominal_annual_rate / compounding_frequency ;;
    p <- (1 + q) ** compounding_frequency ;;
    Ok (p - 1).

Definition continuous_compounding
    (principal annual_rate years : num A) : result (num A) :=
  if principal <? 0 then
    Raise (ValueError "元本は0以上である必要があります")
  else if annual_rate <? 0 then
    Raise (ValueError "年利は0以上である必要があります")
  else if years <? 0 then
    Raise (ValueError "期間は0以上である必要があります")
  else
    e <- math_exp A (annual_rate * years) ;;
    Ok (principal * e).

End Fintools.

(** ** Python's float: IEEE-754 binary64 *)

(** *** The C library under [**] and [math.exp]

    CPython hands the generic case of [x ** y] to the platform's [pow] and
    [math.exp] to its [exp].  They are modelled by the value IEEE 754-2019
    recommends: the real result rounded to nearest.  The real result
    [exp (y * ln x)] is evaluated in fixed point with [K] fractional bits,
    far below the last place of a double, and rounded once. *)
Module Libm.

Local Open Scope Z_scope.

Definition K : Z := 256.

(** A fixed-point number [a] stands for [a / 2^K]. *)
Definition fx_one : Z := Z.shiftl 1 K.
Definition fx_mul (a b : Z) : Z := Z.shiftr (a * b) K.
Definition fx_div (a b : Z) : Z := Z.shiftl a K / b.

(** [atanh_sum n u2 p d acc] adds [n] terms [p/d, p*u2/(d+2), ...] to [acc]. *)
Fixpoint atanh_sum (n : nat) (u2 p d acc : Z) : Z :=
  match n with
  | O => acc
  | S n' => atanh_sum n' u2 (fx_mul p u2) (d + 2) (acc + p / d)
  end.

(** [ln z = 2 atanh ((z - 1) / (z + 1))], for [1 <= z < 2] or [z = 2]. *)
Definition fx_ln (z : Z) : Z :=
  let u := fx_div (z - fx_one) (z + fx_one) in
  2 * atanh_sum 90 (fx_mul u u) u 1 0.

Definition fx_ln2 : Z := Eval vm_compute in fx_ln (2 * fx_one).

(** [exp_sum n r t k acc] adds [n] terms [t, t*r/k, t*r^2/(k(k+1)), ...]. *)
Fixpoint exp_sum (n : nat) (r t k acc : Z) : Z :=
  match n with
  | O => acc
  | S n' => exp_sum n' r (fx_mul t r / k) (k + 1) (acc + t)
  end.

(** [exp] of a fixed-point [l], as a double: [l = q ln 2 + r] with
    [0 <= r < ln 2], and [exp l = 2^q * exp r]. *)
Definition exp_fx (l : Z) : float :=
  if (1025 * fx_ln2 <=? l)%Z then infinity
  else if (l <=? -1080 * fx_ln2)%Z then zero
  else
    let q := (l / fx_ln2)%Z in
    let r := (l - q * fx_ln2)%Z in
    SF2Prim (binary_normalize prec emax (exp_sum 70 r fx_one 1 0) (q - K) false).

(** The value [s m 2^e] of a finite double as a fixed-point number,
    multiplied by the fixed-point [a]. *)
Definition fx_scale (s : bool) (m : positive) (e : Z) (a : Z) : Z :=
  let v := (Zpos m * a)%Z in
  let v := if (0 <=? e)%Z then Z.shiftl v e else Z.shiftr v (- e) in
  if s then (- v)%Z else v.

(** [ln] of a positive finite double [m 2^e]. *)
Definition ln_fx (m : positive) (e : Z) : Z :=
  let d := Zpos (digits2_pos m) - 1 in
  let z := Z.shiftr (Z.shiftl (Zpos m) K) d in
  (fx_ln z + (e + d) * fx_ln2)%Z.

(** [pow x y] for finite [x > 0] and finite [y]. *)
Definition pow (x y : float) : float :=
  match Prim2SF x, Prim2SF y with
  | S754_finite false mx ex, S754_finite sy my ey =>
      exp_fx (fx_scale sy my ey (ln_fx mx ex))
  | _, _ => nan
  end.

(** [exp x]. *)
Definition exp (x : float) : float :=
  match Prim2SF x with
  | S754_nan => nan
  | S754_infinity false => infinity
  | S754_infinity true => zero
  | S754_zero _ => one
  | S754_finite s m e => exp_fx (fx_scale s m e fx_one)
  end.

End Libm.

(** *** CPython's operators on floats *)
Module Py.

Local Open Scope float_scope.

(** An [int] literal next to a float is converted, rounding to nearest. *)
Definition of_int (z : Z) : float :=
  SF2Prim (binary_normalize prec emax z 0 false).

(** [x] is an integer: [x == floor(x)] for finite [x]. *)
Definition is_integer (x : float) : bool :=
  match Prim2SF x with
  | S754_zero _ => true
  | S754_finite _ m e =>
      (0 <=? e)%Z || (Zpos m mod 2 ^ (- e) =? 0)%Z
  | _ => false
  end.

(** [DOUBLE_IS_ODD_INTEGER]: [fmod(fabs(x), 2.0) == 1.0]. *)
Definition is_odd_integer (x : float) : bool :=
  match Prim2SF x with
  | S754_finite _ m e =>
      if (0 <? e)%Z then false
      else (Zpos m mod 2 ^ (- e) =? 0)%Z && Z.odd (Zpos m / 2 ^ (- e))
  | _ => false
  end.

Definition copysign (x y : float) : float :=
  if get_sign y then - abs x else abs x.

(** [x / y]: division by zero raises. *)
Definition float_div (x y : float) : result float :=
  if y =? 0 then Raise ZeroDivisionError else Ok (x / y).

(** [iv ** iw], as [float_pow] of CPython's floatobject.c settles it: the
    special values first, then the C library, whose overflow ([ERANGE], an
    infinite result from finite arguments) becomes [OverflowError]. *)
Definition float_pow (iv iw : float) : result float :=
  if iw =? 0 then Ok 1                         (* v**0 is 1, even 0**0 *)
  else if is_nan iv then Ok iv                 (* nan**w = nan *)
  else if is_nan iw then Ok (if iv =? 1 then 1 else iw)
  else if is_infinity iw then
    let av := abs iv in
    if av =? 1 then Ok 1
    else if Bool.eqb (0 <? iw) (1 <? av) then Ok (abs iw)
    else Ok 0
  else if is_infinity iv then
    let odd := is_odd_integer iw in
    if 0 <? iw then Ok (if odd then iv else abs iv)
    else Ok (if odd then copysign 0 iv else 0)
  else if iv =? 0 then
    if iw <? 0 then Raise ZeroDivisionError
    else Ok (if is_odd_integer iw then iv else 0)
  else if (iv <? 0) && negb (is_integer iw) then Raise ComplexResult
  else
    let negate_result := (iv <? 0) && is_odd_integer iw in
    let av := if iv <? 0 then - iv else iv in
    if av =? 1 then Ok (if negate_result then -1 else 1)
    else
      let ix := Libm.pow av iw in
      if is_infinity ix then Raise OverflowError
      else Ok (if negate_result then - ix else ix).

(** [math.exp(x)]: [OverflowError] when a finite argument gives an
    infinite result. *)
Definition exp (x : float) : result float :=
  let r := Libm.exp x in
  if is_infinity r && is_finite x then Raise OverflowError else Ok r.

End Py.

Definition binary64 : arith :=
  Arith float Py.of_int PrimFloat.add PrimFloat.sub PrimFloat.mul
        Py.float_div Py.float_pow Py.exp PrimFloat.ltb PrimFloat.leb.

(** ** The real numbers *)

(** The same operators in exact arithmetic.  [**] keeps the case split of
    Python's: anything to the power 0 is 1, a positive base is
    [exp (y * ln x)], zero to a negative power raises, a negative base needs
    an integral exponent. *)
Module Real.

Local Open Scope R_scope.

Definition ltb (x y : R) : bool := if Rlt_dec x y then true else false.
Definition leb (x y : R) : bool := if Rle_dec x y then true else false.

Definition div (x y : R) : result R :=
  if Req_dec_T y 0 then Raise ZeroDivisionError else Ok (x / y).

Definition pow (x y : R) : result R :=
  if Req_dec_T y 0 then Ok 1
  else if Rlt_dec 0 x then Ok (Rpower x y)
  else if Req_dec_T x 0 then
    if Rlt_dec y 0 then Raise ZeroDivisionError else Ok 0
  else if Req_dec_T y (IZR (Int_part y)) then Ok (powerRZ x (Int_part y))
  else Raise ComplexResult.

Definition exp (x : R) : result R := Ok (Rtrigo_def.exp x).

End Real.

Definition reals : arith :=
  Arith R IZR Rplus Rminus Rmult Real.div Real.pow Real.exp Real.ltb Real.leb.

(** ** The command line ([cli.py])

    A command reads the fields of the parsed arguments, calls the library
    with the rates divided by 100, and prints.  What it leaves behind is
    the lines written to the two streams and the way it ended.  The text
    of a number comes from Python's formatting built-ins, which are
    parameters here: [format_f x n grouped] is [format(x, ".nf")], with
    thousands separators when [grouped]; [str_float] and [str_int] are
    [str].  The frequency, an [int], meets the floats at its float value
    (an integer beyond the range of a double, which Python refuses to
    convert, is outside this model).  When an exception leaves a command,
    the traceback the interpreter then prints is not part of [stderr]. *)




Section Cli.

Variable format_f : float -> nat -> bool -> string.
Variable str_float : float -> string.
Variable str_int : Z -> string.

Local Open Scope string_scope.
Local Open Scope float_scope.







End Cli.

(** * Properties *)

(** ** Doubles: comparisons and exact operations *)

Section Binary64Facts.

Local Open Scope float_scope.

Lemma prim_zero : Prim2SF 0 = S754_zero false.
Proof. reflexivity. Qed.

Lemma prim_one : Prim2SF 1 = S754_finite false 4503599627370496 (-52).
Proof. reflexivity. Qed.

(** Python's [x >= 0] excludes [x < 0]. *)
Lemma nonneg_not_neg (x : float) : (0 <=? x) = true -> (x <? 0) = false.
Proof.
  intros H. rewrite FloatAxioms.leb_spec, prim_zero in H. rewrite FloatAxioms.ltb_spec, prim_zero.
  destruct (Prim2SF x) as [s | s | | s m e]; cbn in *; try discriminate;
    try reflexivity; destruct s; cbn in *; congruence.
Qed.

(** [x > 0] excludes [x <= 0] and [x == 0]. *)
Lemma pos_not_nonpos (x : float) : (0 <? x) = true -> (x <=? 0) = false.
Proof.
  intros H. rewrite FloatAxioms.ltb_spec, prim_zero in H. rewrite FloatAxioms.leb_spec, prim_zero.
  destruct (Prim2SF x) as [s | s | | s m e]; cbn in *; try discriminate;
    destruct s; cbn in *; congruence.
Qed.

Lemma pos_not_zero (x : float) : (0 <? x) = true -> (x =? 0) = false.
Proof.
  intros H. rewrite FloatAxioms.ltb_spec, prim_zero in H. rewrite FloatAxioms.eqb_spec, prim_zero.
  destruct (Prim2SF x) as [s | s | | s m e]; cbn in *; try discriminate;
    destruct s; cbn in *; congruence.
Qed.

(** What a positive double looks like. *)
Lemma pos_shape (x : float) :
  (0 <? x) = true ->
  Prim2SF x = S754_infinity false \/
  exists m e, Prim2SF x = S754_finite false m e.
Proof.
  intros H. rewrite FloatAxioms.ltb_spec, prim_zero in H.
  destruct (Prim2SF x) as [s | s | | s m e]; cbn in H; try discriminate;
    destruct s; try discriminate; [left | right]; eauto.
Qed.

Lemma finite_not_infinite (x : float) :
  is_finite x = true -> Prim2SF x <> S754_infinity false.
Proof.
  unfold is_finite, is_infinity. intros H E.
  rewrite FloatAxioms.eqb_spec, FloatAxioms.abs_spec, E in H. cbn in H.
  rewrite orb_true_r in H. discriminate.
Qed.

(** A mantissa that already fits is rounded to itself. *)
Lemma round_canonical (s : bool) (m : positive) (e : Z) :
  SpecFloat.bounded prec emax m e = true ->
  binary_round_aux prec emax s (Zpos m) e loc_Exact = S754_finite s m e.
Proof.
  intros Hb. unfold SpecFloat.bounded, canonical_mantissa in Hb.
  apply andb_prop in Hb. destruct Hb as [Hc He]. apply Z.eqb_eq in Hc.
  unfold binary_round_aux, shr_fexp. cbn [Zdigits2 shr_record_of_loc].
  rewrite Hc, Z.sub_diag.
  cbn [shr shr_m loc_of_shr_record round_nearest_even Zdigits2].
  rewrite Hc, Z.sub_diag. cbn [shr shr_m]. rewrite He. reflexivity.
Qed.

Lemma shr_exact_52 (m : positive) :
  SpecFloat.iter_pos shr_1 52
    (Build_shr_record (Zpos (Pos.mul m 4503599627370496)) false false)
  = Build_shr_record (Zpos m) false false.
Proof. rewrite Pos.mul_comm. cbn. reflexivity. Qed.

Lemma digits_shift_52 (m : positive) :
  Zpos (digits2_pos (Pos.mul m 4503599627370496))
  = (Zpos (digits2_pos m) + 52)%Z.
Proof. rewrite Pos.mul_comm. cbn [Pos.mul digits2_pos]. lia. Qed.

(** [x * 1.0] is [x], bit for bit: the product of the mantissas is the
    mantissa of [x] followed by 52 zeros, which the rounding shifts out. *)
Lemma mul_one (x : float) : x * 1 = x.
Proof.
  apply Prim2SF_inj. rewrite FloatAxioms.mul_spec, prim_one.
  pose proof (Prim2SF_valid x) as Hv.
  destruct (Prim2SF x) as [s | s | | s m e];
    try reflexivity; try (destruct s; reflexivity).
  cbn [SpecFloat.valid_binary] in Hv.
  cbv beta iota delta [SF64mul SFmul]. rewrite xorb_false_r.
  pose proof Hv as Hb. unfold SpecFloat.bounded, canonical_mantissa in Hb.
  apply andb_prop in Hb. destruct Hb as [Hc He]. apply Z.eqb_eq in Hc.
  unfold binary_round_aux at 1, shr_fexp at 1.
  cbn [Zdigits2 shr_record_of_loc]. rewrite digits_shift_52.
  replace (Z.pos (digits2_pos m) + 52 + (e + -52))%Z
    with (Z.pos (digits2_pos m) + e)%Z by lia.
  rewrite Hc. replace (e - (e + -52))%Z with 52%Z by lia.
  cbn [shr]. rewrite shr_exact_52.
  cbn [shr_m loc_of_shr_record round_nearest_even].
  replace (e + -52 + 52)%Z with e by lia.
  unfold shr_fexp. cbn [Zdigits2 shr_record_of_loc]. rewrite Hc, Z.sub_diag.
  cbn [shr shr_m]. rewrite He. reflexivity.
Qed.

(** Zero over a positive divisor is zero, and adding it to one gives one. *)
Lemma zero_div_pos (f : float) : (0 <? f) = true -> 0 / f = 0.
Proof.
  intros H. apply Prim2SF_inj. rewrite FloatAxioms.div_spec, prim_zero.
  destruct (pos_shape f H) as [E | [m [e E]]]; rewrite E; reflexivity.
Qed.

(** A finite positive number of periods times zero years is zero. *)
Lemma finite_pos_mul_zero (f : float) :
  (0 <? f) = true -> is_finite f = true -> f * 0 = 0.
Proof.
  intros H Hf. apply Prim2SF_inj. rewrite FloatAxioms.mul_spec, prim_zero.
  destruct (pos_shape f H) as [E | [m [e E]]].
  - now apply finite_not_infinite in Hf.
  - rewrite E. reflexivity.
Qed.

(** [1.0 ** y] is [1.0] whatever [y] is, and [x ** 0.0] is [1.0]. *)
Lemma float_pow_base_one (y : float) : Py.float_pow 1 y = Ok 1.
Proof.
  unfold Py.float_pow.
  destruct (y =? 0); [reflexivity |].
  change (is_nan 1) with false. cbv iota.
  destruct (is_nan y); [reflexivity |].
  destruct (is_infinity y); [reflexivity |].
  reflexivity.
Qed.

Lemma float_pow_exp_zero (x : float) : Py.float_pow x 0 = Ok 1.
Proof. reflexivity. Qed.

(** The operators under the formulas never raise [ValueError]. *)
Lemma float_pow_not_value_error (x y : float) :
  is_value_error (Py.float_pow x y) = false.
Proof.
  unfold Py.float_pow.
  repeat match goal with
         | |- context [if ?b then _ else _] => destruct b; try reflexivity
         end.
Qed.


Lemma exp_not_value_error (x : float) : is_value_error (Py.exp x) = false.
Proof.
  unfold Py.exp. destruct (is_infinity (Libm.exp x) && is_finite x); reflexivity.
Qed.

End Binary64Facts.

(** ** Doubles: the module evaluated

    The model run on the calls of the docstrings and tests; the values are
    those CPython prints for the same expressions. *)

Example eval_annual_to_monthly_rate :
  annual_to_monthly_rate binary64 0.05%float
  = Ok 0.0040741237836483535%float.
Proof. vm_compute. reflexivity. Qed.

Example eval_monthly_to_annual_rate :
  monthly_to_annual_rate binary64 0.01%float = Ok 0.12682503013196977%float.
Proof. vm_compute. reflexivity. Qed.

Example eval_compound_interest_yearly :
  compound_interest binary64 1000000%float 0.05%float 10%float 1%float
  = Ok 1628894.626777442%float.
Proof. vm_compute. reflexivity. Qed.

Example eval_compound_interest_monthly :
  compound_interest binary64 1000000%float 0.05%float 10%float 12%float
  = Ok 1647009.49769028%float.
Proof. vm_compute. reflexivity. Qed.

Example eval_compound_interest_fractional_years :
  compound_interest binary64 1000000%float 0.05%float 2.5%float 1%float
  = Ok 1129726.3219470459%float.
Proof. vm_compute. reflexivity. Qed.

Example eval_present_value :
  present_value binary64 1628894.63%float 0.05%float 10%float 1%float
  = Ok 1000000.001978371%float.
Proof. vm_compute. reflexivity. Qed.

Example eval_effective_annual_rate :
  effective_annual_rate binary64 0.05%float 12%float
  = Ok 0.051161897881732976%float.
Proof. vm_compute. reflexivity. Qed.

Example eval_continuous_compounding :
  continuous_compounding binary64 1000000%float 0.05%float 10%float
  = Ok 1648721.2707001283%float.
Proof. vm_compute. reflexivity. Qed.

Example eval_negative_principal :
  compound_interest binary64 (-1000000)%float 0.05%float 10%float 1%float
  = Raise (ValueError "元本は0以上である必要があります").
Proof. vm_compute. reflexivity. Qed.

Example eval_zero_frequency :
  compound_interest binary64 1000000%float 0.05%float 10%float 0%float
  = Raise (ValueError "複利回数は1以上である必要があります").
Proof. vm_compute. reflexivity. Qed.

(** ** Real numbers: the operators and the analysis behind the formulas *)

Section ExactFacts.

Local Open Scope R_scope.



Lemma real_ltb_ge (x y : R) : y <= x -> Real.ltb x y = false.
Proof. intros H. unfold Real.ltb. destruct (Rlt_dec x y); [lra | reflexivity]. Qed.

Lemma real_leb_le (x y : R) : x <= y -> Real.leb x y = true.
Proof. intros H. unfold Real.leb. destruct (Rle_dec x y); [reflexivity | lra]. Qed.

Lemma real_leb_gt (x y : R) : y < x -> Real.leb x y = false.
Proof. intros H. unfold Real.leb. destruct (Rle_dec x y); [lra | reflexivity]. Qed.

Lemma real_div_nonzero (x y : R) : y <> 0 -> Real.div x y = Ok (x / y).
Proof.
  intros H. unfold Real.div. destruct (Req_dec_T y 0); [contradiction | reflexivity].
Qed.

(** Over a positive base, [**] is the real power, also at exponent 0. *)
Lemma real_pow_pos (x y : R) : 0 < x -> Real.pow x y = Ok (Rpower x y).
Proof.
  intros H. unfold Real.pow.
  destruct (Req_dec_T y 0) as [E | E].
  - rewrite E, Rpower_O by assumption. reflexivity.
  - destruct (Rlt_dec 0 x); [reflexivity | contradiction].
Qed.


Lemma Rpower_gt_0 (x y : R) : 0 < Rpower x y.
Proof. unfold Rpower. apply exp_pos. Qed.

Lemma div_nonneg (r f : R) : 0 <= r -> 0 < f -> 0 <= r / f.
Proof.
  intros Hr Hf. apply Rmult_le_pos; [assumption |].
  left. now apply Rinv_0_lt_compat.
Qed.














End ExactFacts.


(** ** The module in exact arithmetic *)

Local Open Scope R_scope.

Ltac real_ops :=
  cbn [reals num lit add sub mul truediv power math_exp ltb leb].

Lemma real_compound_interest (P r t f : R) :
  0 <= P -> 0 <= r -> 0 <= t -> 0 < f ->
  compound_interest reals P r t f = Ok (P * Rpower (1 + r / f) (f * t)).
Proof.
  intros HP Hr Ht Hf. pose proof (div_nonneg r f Hr Hf) as Hq.
  unfold compound_interest. real_ops.
  rewrite !real_ltb_ge, real_leb_gt, real_div_nonzero by lra.
  cbn [bind]. rewrite real_pow_pos by lra. reflexivity.
Qed.

Lemma real_present_value (F r t f : R) :
  0 <= F -> 0 <= r -> 0 <= t -> 0 < f ->
  present_value reals F r t f = Ok (F / Rpower (1 + r / f) (f * t)).
Proof.
  intros HP Hr Ht Hf. pose proof (div_nonneg r f Hr Hf) as Hq.
  unfold present_value. real_ops.
  rewrite !real_ltb_ge, real_leb_gt, real_div_nonzero by lra.
  cbn [bind]. rewrite real_pow_pos by lra. cbn [bind].
  apply real_div_nonzero. pose proof (Rpower_gt_0 (1 + r / f) (f * t)). lra.
Qed.


Lemma real_monthly_to_annual_rate (m : R) :
  0 <= m -> monthly_to_annual_rate reals m = Ok (Rpower (1 + m) 12 - 1).
Proof.
  intros Ha. unfold monthly_to_annual_rate. real_ops.
  rewrite real_ltb_ge by lra. rewrite real_pow_pos by lra. reflexivity.
Qed.

Lemma real_effective_annual_rate (r n : R) :
  0 <= r -> 0 < n ->
  effective_annual_rate reals r n = Ok (Rpower (1 + r / n) n - 1).
Proof.
  intros Hr Hn. pose proof (div_nonneg r n Hr Hn) as Hq.
  unfold effective_annual_rate. real_ops.
  rewrite real_ltb_ge, real_leb_gt, real_div_nonzero by lra.
  cbn [bind]. rewrite real_pow_pos by lra. reflexivity.
Qed.

Lemma real_continuous_compounding (P r t : R) :
  0 <= P -> 0 <= r -> 0 <= t ->
  continuous_compounding reals P r t = Ok (P * exp (r * t)).
Proof.
  intros HP Hr Ht. unfold continuous_compounding. real_ops.
  rewrite !real_ltb_ge by lra. reflexivity.
Qed.





(** ** Input validation, over any arithmetic *)


Section Validation.

Variable A : arith.

(** The operators themselves never report a [ValueError]. *)
Hypothesis div_no_value_error :
  forall x y, is_value_error (truediv A x y) = false.
Hypothesis pow_no_value_error :
  forall x y, is_value_error (power A x y) = false.
Hypothesis exp_no_value_error :
  forall x, is_value_error (math_exp A x) = false.


















End Validation.

(** ** The module over doubles *)

Lemma of_int_0 : Py.of_int 0 = 0%float.
Proof. reflexivity. Qed.

Lemma of_int_1 : Py.of_int 1 = 1%float.
Proof. reflexivity. Qed.

Lemma of_int_12 : Py.of_int 12 = 12%float.
Proof. reflexivity. Qed.

Ltac float_ops :=
  cbn [binary64 num lit add sub mul truediv power math_exp ltb leb];
  rewrite ?of_int_0, ?of_int_1, ?of_int_12.

(** Past its validation, [compound_interest] is one division, one power
    and one product. *)
Lemma float_compound_interest (P r t f : float) :
  (0 <=? P)%float = true -> (0 <=? r)%float = true ->
  (0 <=? t)%float = true -> (0 <? f)%float = true ->
  compound_interest binary64 P r t f
  = (p <- Py.float_pow (1 + r / f)%float (f * t)%float ;; Ok (P * p)%float).
Proof.
  intros HP Hr Ht Hf. unfold compound_interest. float_ops.
  rewrite (nonneg_not_neg P HP), (nonneg_not_neg r Hr), (nonneg_not_neg t Ht),
    (pos_not_nonpos f Hf).
  unfold Py.float_div. rewrite (pos_not_zero f Hf). reflexivity.
Qed.


(** * The claims *)



(** C9.  [future_value] is [compound_interest]: the same outcome, value or
    exception, on the same inputs, whatever the arithmetic. *)
Theorem future_value_is_compound_interest
    (A : arith) (principal annual_rate years compounding_frequency : num A) :
  future_value A principal annual_rate years compounding_frequency
  = compound_interest A principal annual_rate years compounding_frequency.
Proof. reflexivity. Qed.

(** C4.  With a zero rate, or with zero years, [compound_interest] returns
    the principal itself, bit for bit (and exactly over the reals).  The
    frequency, an [int] in the source, is a finite number. *)
Theorem zero_rate_or_zero_years_returns_principal :
  (forall P t f : float,
      (0 <=? P)%float = true -> (0 <=? t)%float = true ->
      (0 <? f)%float = true ->
      compound_interest binary64 P 0%float t f = Ok P)
  /\ (forall P r f : float,
      (0 <=? P)%float = true -> (0 <=? r)%float = true ->
      (0 <? f)%float = true -> is_finite f = true ->
      compound_interest binary64 P r 0%float f = Ok P)
  /\ (forall P t f : R,
      0 <= P -> 0 <= t -> 0 < f -> compound_interest reals P 0 t f = Ok P)
  /\ (forall P r f : R,
      0 <= P -> 0 <= r -> 0 < f -> compound_interest reals P r 0 f = Ok P).
Proof.
  repeat split.
  - intros P t f HP Ht Hf.
    rewrite float_compound_interest by (assumption || reflexivity).
    rewrite (zero_div_pos f Hf).
    change (1 + 0)%float with 1%float.
    rewrite float_pow_base_one. cbn [bind]. now rewrite mul_one.
  - intros P r f HP Hr Hf Hfin.
    rewrite float_compound_interest by (assumption || reflexivity).
    rewrite (finite_pos_mul_zero f Hf Hfin), float_pow_exp_zero.
    cbn [bind]. now rewrite mul_one.
  - intros P t f HP Ht Hf. rewrite real_compound_interest by lra.
    f_equal. replace (1 + 0 / f) with 1 by (field; lra).
    unfold Rpower. rewrite ln_1, Rmult_0_r, exp_0. ring.
  - intros P r f HP Hr Hf. rewrite real_compound_interest by lra.
    f_equal. rewrite Rmult_0_r, Rpower_O; [ring |].
    pose proof (div_nonneg r f Hr Hf). lra.
Qed.

Lemma zero_rate_or_zero_years_witness :
  compound_interest binary64 1000000%float 0%float 10%float 1%float
  = Ok 1000000%float
  /\ compound_interest binary64 1000000%float 0.05%float 0%float 1%float
     = Ok 1000000%float
  /\ compound_interest reals 1000000 0 10 1 = Ok 1000000
  /\ compound_interest reals 1000000 (5 / 100) 0 1 = Ok 1000000.
Proof.
  destruct zero_rate_or_zero_years_returns_principal
    as [Hrate [Hyears [Hrate' Hyears']]].
  split; [apply Hrate; reflexivity |].
  split; [apply Hyears; reflexivity |].
  split; [apply Hrate'; lra | apply Hyears'; lra].
Defined.





















(** * Further properties of the module *)

(** ** More on doubles *)

Section MoreBinary64Facts.

Local Open Scope float_scope.

(** What a double [x >= 0] looks like. *)
Lemma nonneg_shape (x : float) :
  (0 <=? x) = true ->
  (exists s, Prim2SF x = S754_zero s) \/ Prim2SF x = S754_infinity false \/
  exists m e, Prim2SF x = S754_finite false m e.
Proof.
  intros H. rewrite FloatAxioms.leb_spec, prim_zero in H.
  destruct (Prim2SF x) as [s | s | | s m e]; cbn in H; try discriminate;
    [left; eauto | destruct s; try discriminate; right; left; reflexivity
    | destruct s; try discriminate; right; right; eauto].
Qed.

Lemma finite_not_any_infinity (x : float) (s : bool) :
  is_finite x = true -> Prim2SF x <> S754_infinity s.
Proof.
  unfold is_finite, is_infinity. intros H E.
  rewrite FloatAxioms.eqb_spec, FloatAxioms.abs_spec, E in H. cbn in H.
  rewrite orb_true_r in H. discriminate.
Qed.

(** The result of a rounding carries the sign it was given. *)
Lemma round_aux_shape (s : bool) (m e : Z) (l : location) :
  let r := binary_round_aux prec emax s m e l in
  r = S754_zero s \/ r = S754_infinity s \/ r = S754_nan \/
  exists m' e', r = S754_finite s m' e'.
Proof.
  unfold binary_round_aux.
  destruct (shr_fexp prec emax m e l) as [mrs' e'].
  destruct (shr_fexp prec emax _ e' loc_Exact) as [mrs'' e''].
  destruct (shr_m mrs'') as [| p | p]; auto.
  destruct (e'' <=? emax - prec)%Z; eauto 6.
Qed.

Lemma sf_not_neg (x : spec_float) :
  x = S754_zero false \/ x = S754_infinity false \/ x = S754_nan \/
  (exists m e, x = S754_finite false m e) ->
  SFltb x (S754_zero false) = false.
Proof.
  intros [-> | [-> | [-> | [m [e ->]]]]]; reflexivity.
Qed.

(** A non-negative double over a positive one is not negative. *)
Lemma div_nonneg_pos_not_neg (x y : float) :
  (0 <=? x) = true -> (0 <? y) = true -> (x / y <? 0) = false.
Proof.
  intros Hx Hy. rewrite FloatAxioms.ltb_spec, FloatAxioms.div_spec, prim_zero.
  destruct (pos_shape y Hy) as [Ey | [my [ey Ey]]];
    destruct (nonneg_shape x Hx) as [[s Ex] | [Ex | [mx [ex Ex]]]];
    rewrite Ex, Ey; try (destruct s); try reflexivity.
  cbv beta iota delta [SF64div SFdiv].
  destruct (SFdiv_core_binary prec emax (Z.pos mx) ex (Z.pos my) ey) as [[mz ez] lz].
  apply sf_not_neg.
  pose proof (round_aux_shape false mz ez lz) as H. cbv zeta in H.
  cbn [xorb]. tauto.
Qed.

Lemma py_exp_of_zero (x : float) (s : bool) :
  Prim2SF x = S754_zero s -> Py.exp x = Ok 1.
Proof.
  intros E. unfold Py.exp, Libm.exp. rewrite E. reflexivity.
Qed.

Lemma zero_mul_finite_nonneg (t : float) :
  (0 <=? t) = true -> is_finite t = true ->
  exists s, Prim2SF (0 * t) = S754_zero s.
Proof.
  intros Ht Hf. rewrite FloatAxioms.mul_spec, prim_zero.
  destruct (nonneg_shape t Ht) as [[s E] | [E | [m [e E]]]].
  - rewrite E. eexists. reflexivity.
  - now apply finite_not_any_infinity in E.
  - rewrite E. eexists. reflexivity.
Qed.

Lemma finite_nonneg_mul_zero (r : float) :
  (0 <=? r) = true -> is_finite r = true ->
  exists s, Prim2SF (r * 0) = S754_zero s.
Proof.
  intros Hr Hf. rewrite FloatAxioms.mul_spec, prim_zero.
  destruct (nonneg_shape r Hr) as [[s E] | [E | [m [e E]]]].
  - rewrite E. eexists. reflexivity.
  - now apply finite_not_any_infinity in E.
  - rewrite E. eexists. reflexivity.
Qed.

Lemma div_eucl_exact (a b : Z) :
  (0 < b)%Z -> Z.div_eucl (a * b) b = (a, 0%Z).
Proof.
  intros Hb.
  assert (E : Z.div_eucl (a * b) b = ((a * b) / b, (a * b) mod b)%Z)
    by (unfold Z.div, Z.modulo; destruct (Z.div_eucl (a * b) b); reflexivity).
  rewrite E, Z.div_mul, Z.mod_mul by lia. reflexivity.
Qed.

(** [x / 1.0] is [x], bit for bit. *)
Lemma div_one (x : float) : x / 1 = x.
Proof.
  apply Prim2SF_inj. rewrite FloatAxioms.div_spec, prim_one.
  pose proof (Prim2SF_valid x) as Hv.
  destruct (Prim2SF x) as [s | s | | s m e];
    try reflexivity; try (destruct s; reflexivity).
  cbn [SpecFloat.valid_binary] in Hv.
  pose proof Hv as Hb. unfold SpecFloat.bounded, canonical_mantissa in Hb.
  apply andb_prop in Hb. destruct Hb as [Hc He]. apply Z.eqb_eq in Hc.
  cbv beta iota delta [SF64div SFdiv]. rewrite xorb_false_r.
  unfold SFdiv_core_binary. cbn [Zdigits2].
  change (Z.pos (digits2_pos 4503599627370496)) with 53%Z.
  set (d := Z.pos (digits2_pos m)) in *.
  set (e' := Z.min (fexp prec emax (d + e - (53 + -52))) (e - -52)).
  assert (He' : e' = e \/ (e' = e - 1)%Z).
  { unfold e', fexp, SpecFloat.emin, prec, emax in *. lia. }
  destruct He' as [-> | ->].
  - replace (e - -52 - e)%Z with 52%Z by lia.
    rewrite Z.shiftl_mul_pow2 by lia.
    change (2 ^ 52)%Z with 4503599627370496%Z.
    rewrite div_eucl_exact by lia.
    change (new_location 4503599627370496 0) with loc_Exact.
    now apply round_canonical.
  - replace (e - -52 - (e - 1))%Z with 53%Z by lia.
    rewrite Z.shiftl_mul_pow2 by lia.
    change (2 ^ 53)%Z with (2 * 4503599627370496)%Z.
    rewrite Z.mul_assoc, div_eucl_exact by lia.
    change (new_location 4503599627370496 0) with loc_Exact.
    replace (Z.pos m * 2)%Z with (Z.pos m~0) by lia.
    unfold binary_round_aux, shr_fexp. cbn [Zdigits2 shr_record_of_loc digits2_pos].
    replace (Z.pos (Pos.succ (digits2_pos m)) + (e - 1))%Z with (d + e)%Z
      by (unfold d; lia).
    rewrite Hc. replace (e - (e - 1))%Z with 1%Z by lia.
    cbn [shr SpecFloat.iter_pos shr_1 orb shr_m loc_of_shr_record round_nearest_even Zdigits2].
    replace (e - 1 + 1)%Z with e by lia.
    fold d. rewrite Hc, Z.sub_diag. cbn [shr shr_m]. rewrite He. reflexivity.
Qed.

Lemma nan_mul (p : float) : nan * p = nan.
Proof. apply Prim2SF_inj. rewrite FloatAxioms.mul_spec. reflexivity. Qed.

Lemma nan_div (p : float) : nan / p = nan.
Proof. apply Prim2SF_inj. rewrite FloatAxioms.div_spec. reflexivity. Qed.

End MoreBinary64Facts.

(** ** More on the real formulas *)





(** ** Edge values over doubles *)

Section EdgeValues.

Local Open Scope float_scope.

(** X1.  [continuous_compounding] returns the principal itself, bit for
    bit, when the rate is zero or the period is zero years and the other
    of the two is a finite number; over the reals it always does. *)
Theorem continuous_compounding_zero_returns_principal :
  (forall P t : float,
      (0 <=? P) = true -> (0 <=? t) = true -> is_finite t = true ->
      continuous_compounding binary64 P 0 t = Ok P)
  /\ (forall P r : float,
      (0 <=? P) = true -> (0 <=? r) = true -> is_finite r = true ->
      continuous_compounding binary64 P r 0 = Ok P)
  /\ (forall P t : R, (0 <= P)%R -> (0 <= t)%R ->
      continuous_compounding reals P 0%R t = Ok P)
  /\ (forall P r : R, (0 <= P)%R -> (0 <= r)%R ->
      continuous_compounding reals P r 0%R = Ok P).
Proof.
  split; [| split; [| split]].
  - intros P t HP Ht Hf. unfold continuous_compounding. float_ops.
    rewrite (nonneg_not_neg P HP), (nonneg_not_neg t Ht).
    change (0 <? 0) with false. cbv iota.
    destruct (zero_mul_finite_nonneg t Ht Hf) as [s E].
    rewrite (py_exp_of_zero _ s E). cbn [bind]. now rewrite mul_one.
  - intros P r HP Hr Hf. unfold continuous_compounding. float_ops.
    rewrite (nonneg_not_neg P HP), (nonneg_not_neg r Hr).
    change (0 <? 0) with false. cbv iota.
    destruct (finite_nonneg_mul_zero r Hr Hf) as [s E].
    rewrite (py_exp_of_zero _ s E). cbn [bind]. now rewrite mul_one.
  - intros P t HP Ht. rewrite real_continuous_compounding by lra.
    f_equal. rewrite Rmult_0_l, exp_0. ring.
  - intros P r HP Hr. rewrite real_continuous_compounding by lra.
    f_equal. rewrite Rmult_0_r, exp_0. ring.
Qed.


Lemma continuous_compounding_zero_witness :
  continuous_compounding binary64 1000000 0 10 = Ok 1000000
  /\ continuous_compounding binary64 1000000 0.05 0 = Ok 1000000
  /\ continuous_compounding reals 1000000%R 0%R 10%R = Ok 1000000%R
  /\ continuous_compounding reals 1000000%R (5 / 100)%R 0%R = Ok 1000000%R.
Proof.
  destruct continuous_compounding_zero_returns_principal
    as [Hrate [Hyears [Hrate' Hyears']]].
  split; [apply Hrate; reflexivity |].
  split; [apply Hyears; reflexivity |].
  split; [apply Hrate'; lra | apply Hyears'; lra].
Defined.

(** X2.  [present_value] returns the future amount itself, bit for bit,
    when the rate is zero or the period is zero years (with a finite
    frequency), and exactly so over the reals. *)
Theorem present_value_zero_rate_or_zero_years :
  (forall F t f : float,
      (0 <=? F) = true -> (0 <=? t) = true -> (0 <? f) = true ->
      present_value binary64 F 0 t f = Ok F)
  /\ (forall F r f : float,
      (0 <=? F) = true -> (0 <=? r) = true -> (0 <? f) = true ->
      is_finite f = true ->
      present_value binary64 F r 0 f = Ok F)
  /\ (forall F t f : R, (0 <= F)%R -> (0 <= t)%R -> (0 < f)%R ->
      present_value reals F 0%R t f = Ok F)
  /\ (forall F r f : R, (0 <= F)%R -> (0 <= r)%R -> (0 < f)%R ->
      present_value reals F r 0%R f = Ok F).
Proof.
  split; [| split; [| split]].
  - intros F t f HF Ht Hf. unfold present_value. float_ops.
    rewrite (nonneg_not_neg F HF), (nonneg_not_neg t Ht), (pos_not_nonpos f Hf).
    change (0 <? 0) with false. cbv iota.
    unfold Py.float_div at 1. rewrite (pos_not_zero f Hf). cbn [bind].
    rewrite (zero_div_pos f Hf). change (1 + 0) with 1.
    rewrite float_pow_base_one. cbn [bind].
    unfold Py.float_div. change (1 =? 0) with false. cbv iota.
    now rewrite div_one.
  - intros F r f HF Hr Hf Hfin. unfold present_value. float_ops.
    rewrite (nonneg_not_neg F HF), (nonneg_not_neg r Hr), (pos_not_nonpos f Hf).
    change (0 <? 0) with false. cbv iota.
    unfold Py.float_div at 1. rewrite (pos_not_zero f Hf). cbn [bind].
    rewrite (finite_pos_mul_zero f Hf Hfin), float_pow_exp_zero. cbn [bind].
    unfold Py.float_div. change (1 =? 0) with false. cbv iota.
    now rewrite div_one.
  - intros F t f HF Ht Hf. rewrite real_present_value by lra.
    f_equal. replace (1 + 0 / f)%R with 1%R by (field; lra).
    unfold Rpower. rewrite ln_1, Rmult_0_r, exp_0. field.
  - intros F r f HF Hr Hf. rewrite real_present_value by lra.
    f_equal. rewrite Rmult_0_r, Rpower_O; [field |].
    pose proof (div_nonneg r f Hr Hf). lra.
Qed.


Lemma present_value_zero_witness :
  present_value binary64 2000000 0 5 12 = Ok 2000000
  /\ present_value binary64 2000000 0.03 0 12 = Ok 2000000
  /\ present_value reals 2000000%R 0%R 5%R 12%R = Ok 2000000%R
  /\ present_value reals 2000000%R (3 / 100)%R 0%R 12%R = Ok 2000000%R.
Proof.
  destruct present_value_zero_rate_or_zero_years
    as [Hrate [Hyears [Hrate' Hyears']]].
  split; [apply Hrate; reflexivity |].
  split; [apply Hyears; reflexivity |].
  split; [apply Hrate'; lra | apply Hyears'; lra].
Defined.

(** X3.  A zero rate stays zero, exactly: both rate conversions map 0 to
    0, and the effective annual rate of a zero nominal rate is 0 at every
    positive frequency. *)
Theorem zero_rate_converts_to_zero :
  annual_to_monthly_rate binary64 0 = Ok 0
  /\ monthly_to_annual_rate binary64 0 = Ok 0
  /\ (forall f : float,
      (0 <? f) = true -> effective_annual_rate binary64 0 f = Ok 0)
  /\ (forall f : R,
      (0 < f)%R -> effective_annual_rate reals 0%R f = Ok 0%R).
Proof.
  split; [vm_compute; reflexivity |]. split; [vm_compute; reflexivity |].
  split; [| intros f Hf; rewrite real_effective_annual_rate by lra;
            f_equal; replace (1 + 0 / f)%R with 1%R by (field; lra);
            unfold Rpower; rewrite ln_1, Rmult_0_r, exp_0; ring].
  intros f Hf. unfold effective_annual_rate. float_ops.
  change (0 <? 0) with false. rewrite (pos_not_nonpos f Hf).
  unfold Py.float_div. rewrite (pos_not_zero f Hf). cbn [bind].
  rewrite (zero_div_pos f Hf). change (1 + 0) with 1.
  rewrite float_pow_base_one. reflexivity.
Qed.


Lemma zero_rate_converts_witness :
  effective_annual_rate binary64 0 365 = Ok 0
  /\ effective_annual_rate reals 0%R 365%R = Ok 0%R.
Proof.
  destruct zero_rate_converts_to_zero as [_ [_ [Hfloat Hreal]]].
  split; [apply Hfloat; reflexivity | apply Hreal; lra].
Defined.

(** X4.  The effective annual rate of a nominal rate [r >= 0] compounded 12
    times a year is [monthly_to_annual_rate (r / 12)], bit for bit over
    doubles and exactly over the reals. *)
Theorem effective_rate_monthly_is_monthly_to_annual :
  (forall r : float,
      (0 <=? r) = true ->
      effective_annual_rate binary64 r 12 = monthly_to_annual_rate binary64 (r / 12))
  /\ (forall r : R,
      (0 <= r)%R ->
      effective_annual_rate reals r 12%R = monthly_to_annual_rate reals (r / 12)%R).
Proof.
  split.
  - intros r Hr. unfold effective_annual_rate, monthly_to_annual_rate. float_ops.
    rewrite (nonneg_not_neg r Hr).
    rewrite (div_nonneg_pos_not_neg r 12 Hr eq_refl).
    reflexivity.
  - intros r Hr. rewrite real_effective_annual_rate by lra.
    rewrite real_monthly_to_annual_rate; [reflexivity | lra].
Qed.


Lemma effective_rate_monthly_witness :
  effective_annual_rate binary64 0.05 12
  = monthly_to_annual_rate binary64 (0.05 / 12)
  /\ effective_annual_rate reals (5 / 100)%R 12%R
     = monthly_to_annual_rate reals (5 / 100 / 12)%R.
Proof.
  destruct effective_rate_monthly_is_monthly_to_annual as [Hfloat Hreal].
  split; [apply Hfloat; reflexivity | apply Hreal; lra].
Defined.

(** X5.  A NaN principal (or future amount) is not rejected: with the other
    inputs valid, no [ValueError] is raised, and a value that is returned
    is NaN. *)
Theorem nan_principal_is_not_rejected (r t f : float) :
  (0 <=? r) = true -> (0 <=? t) = true -> (0 <? f) = true ->
  (is_value_error (compound_interest binary64 nan r t f) = false
   /\ forall v, compound_interest binary64 nan r t f = Ok v -> is_nan v = true)
  /\ (is_value_error (present_value binary64 nan r t f) = false
      /\ forall v, present_value binary64 nan r t f = Ok v -> is_nan v = true)
  /\ (is_value_error (continuous_compounding binary64 nan r t) = false
      /\ forall v, continuous_compounding binary64 nan r t = Ok v -> is_nan v = true).
Proof.
  intros Hr Ht Hf.
  assert (Ec : compound_interest binary64 nan r t f
               = (p <- Py.float_pow (1 + r / f) (f * t) ;; Ok nan)).
  { unfold compound_interest. float_ops. change (nan <? 0) with false.
    rewrite (nonneg_not_neg r Hr), (nonneg_not_neg t Ht), (pos_not_nonpos f Hf).
    unfold Py.float_div. rewrite (pos_not_zero f Hf). cbn [bind].
    destruct (Py.float_pow (1 + r / f) (f * t)); cbn [bind];
      [now rewrite nan_mul | reflexivity]. }
  assert (Ep : present_value binary64 nan r t f
               = (p <- Py.float_pow (1 + r / f) (f * t) ;;
                  if p =? 0 then Raise ZeroDivisionError else Ok nan)).
  { unfold present_value. float_ops. change (nan <? 0) with false.
    rewrite (nonneg_not_neg r Hr), (nonneg_not_neg t Ht), (pos_not_nonpos f Hf).
    unfold Py.float_div. rewrite (pos_not_zero f Hf). cbn [bind].
    destruct (Py.float_pow (1 + r / f) (f * t)); cbn [bind];
      [now rewrite nan_div | reflexivity]. }
  assert (Ee : continuous_compounding binary64 nan r t
               = (e <- Py.exp (r * t) ;; Ok nan)).
  { unfold continuous_compounding. float_ops. change (nan <? 0) with false.
    rewrite (nonneg_not_neg r Hr), (nonneg_not_neg t Ht).
    destruct (Py.exp (r * t)); cbn [bind];
      [now rewrite nan_mul | reflexivity]. }
  rewrite Ec, Ep, Ee.
  pose proof (float_pow_not_value_error (1 + r / f) (f * t)) as Hp.
  pose proof (exp_not_value_error (r * t)) as He.
  destruct (Py.float_pow (1 + r / f) (f * t)) as [p | e];
    destruct (Py.exp (r * t)) as [q | e']; cbn [bind];
    try destruct (p =? 0);
    repeat split; try assumption; try reflexivity;
    intros v E; try discriminate E; injection E as <-; reflexivity.
Qed.


Lemma nan_principal_witness :
  is_value_error (compound_interest binary64 nan 0.05 10 1) = false
  /\ compound_interest binary64 nan 0.05 10 1 = Ok nan.
Proof.
  destruct (nan_principal_is_not_rejected 0.05 10 1) as [[Hquiet _] _];
    try reflexivity.
  split; [exact Hquiet | vm_compute; reflexivity].
Defined.

End EdgeValues.

(** ** Laws of the formulas, in exact arithmetic *)































(** ** The command line *)


Section CliFacts.

Variable format_f : float -> nat -> bool -> string.
Variable str_float : float -> string.
Variable str_int : Z -> string.

Local Open Scope float_scope.



End CliFacts.
